(** * check_whoami: retrying command runner and cluster-admin decision

    A shallow embedding of [plugins/modules/check_whoami.py].

    - Python [str] values are [string]s; one [ascii] stands for one code
      point below 256.
    - The [AnsibleModule] object is the external collaborator: what its
      [run_command] answers is a parameter (a function of how many commands
      were run before and of the command line), what the program does to
      the outside (commands run, warnings emitted, sleeps) is recorded in a
      [World] threaded through a state monad.
    - Python [int]s are [Z]; the [delay] handed to [time.sleep] is an [N],
      because [time.sleep] rejects negative lengths. *)

From Stdlib Require Import String Ascii List ZArith NArith Arith Lia Bool.
From Stdlib Require Import DecimalString.
From ExtLib Require Import Structures.Monad Structures.MonadState Data.Monads.StateMonad.
Import ListNotations.
Import MonadNotation.
Local Open Scope monad_scope.
Local Open Scope string_scope.

(** ** Python string primitives *)

Module PyStr.

(** [str.isspace] on one code point below 256: U+0009..U+000D,
    U+001C..U+001F, U+0020, U+0085 and U+00A0. *)
Definition isspace (c : ascii) : bool :=
  let n := nat_of_ascii c in
  ((9 <=? n)%nat && (n <=? 13)%nat) || ((28 <=? n)%nat && (n <=? 32)%nat)
  || (n =? 133)%nat || (n =? 160)%nat.

(** [s.lstrip()] *)
Fixpoint lstrip (s : string) : string :=
  match s with
  | EmptyString => EmptyString
  | String c s' => if isspace c then lstrip s' else s
  end.

(** [s.rstrip()] *)
Fixpoint rstrip (s : string) : string :=
  match s with
  | EmptyString => EmptyString
  | String c s' =>
      match rstrip s' with
      | EmptyString => if isspace c then EmptyString else String c EmptyString
      | r => String c r
      end
  end.

(** [s.strip()] *)
Definition strip (s : string) : string := rstrip (lstrip s).

(** [hay.startswith(needle)] *)
Fixpoint startswith (needle hay : string) : bool :=
  match needle, hay with
  | EmptyString, _ => true
  | String _ _, EmptyString => false
  | String a needle', String b hay' => Ascii.eqb a b && startswith needle' hay'
  end.

(** [needle in hay] *)
Fixpoint contains (needle hay : string) : bool :=
  startswith needle hay
  || match hay with
     | EmptyString => false
     | String _ hay' => contains needle hay'
     end.

(** Number of positions of [hay] at which [needle] starts:
    occurrences, overlapping ones included. *)
Fixpoint occurrences (needle hay : string) : nat :=
  (if startswith needle hay then 1 else 0)
  + match hay with
    | EmptyString => 0
    | String _ hay' => occurrences needle hay'
    end.

(** [str(n)] for an [int]. *)
Definition of_int (n : Z) : string := NilZero.string_of_int (Z.to_int n).

(** [str(n)] for a non-negative [int]. *)
Definition of_nonneg (n : N) : string := NilZero.string_of_uint (N.to_uint n).

(** How an f-string renders an [Optional[str]]: [None] prints as the
    four letters of its name. *)
Definition of_optional (o : option string) : string :=
  match o with
  | Some s => s
  | None => "None"
  end.

(** Truth value of an [Optional[str]] in an [if]: [None] and the empty
    string are false. *)
Definition truthy (o : option string) : bool :=
  match o with
  | Some EmptyString | None => false
  | Some (String _ _) => true
  end.

(** Every character of [s] is white space. *)
Fixpoint all_space (s : string) : bool :=
  match s with
  | EmptyString => true
  | String c s' => isspace c && all_space s'
  end.

(** [s] does not begin with white space. *)
Definition tight_left (s : string) : bool :=
  match s with
  | EmptyString => true
  | String c _ => negb (isspace c)
  end.

(** [s] does not end with white space. *)
Fixpoint tight_right (s : string) : bool :=
  match s with
  | EmptyString => true
  | String c EmptyString => negb (isspace c)
  | String _ s' => tight_right s'
  end.

End PyStr.

(** ** The outside world *)

(** What the program does to its environment, in order. *)
Inductive event : Type :=
| EvRun (command : string)
| EvWarn (msg : string)
| EvSleep (seconds : N).

(** [run_done] counts the commands run so far; [trace] lists every effect,
    oldest first. *)
Record World : Type := mkWorld {
  run_done : nat;
  trace : list event
}.

(** The answer of one [module.run_command]: [(rc, stdout, stderr)]. *)
Definition cmd_result : Type := Z * string * string.

Definition rc_of (r : cmd_result) : Z := fst (fst r).
Definition stdout_of (r : cmd_result) : string := snd (fst r).
Definition stderr_of (r : cmd_result) : string := snd r.

(** The [AnsibleModule] handed to every function: the answer to the
    [n]-th command run (counting from 0) with command line [command]. *)
Record AnsibleModule : Type := mkModule {
  answer : nat -> string -> cmd_result
}.

Definition M : Type -> Type := state World.

Definition emit (e : event) : M unit :=
  w <- get ;;
  put (mkWorld (run_done w) (trace w ++ [e])).

(** [module.run_command(command)] *)
Definition run_command (module : AnsibleModule) (command : string) : M cmd_result :=
  w <- get ;;
  put (mkWorld (S (run_done w)) (trace w ++ [EvRun command])) ;;
  ret (answer module (run_done w) command).

(** [module.warn(msg)] *)
Definition warn (msg : string) : M unit := emit (EvWarn msg).

(** [time.sleep(seconds)] *)
Definition sleep (seconds : N) : M unit := emit (EvSleep seconds).

(** ** The retrying command runner *)

(** [range(n)] *)
Definition range (n : Z) : list Z := map Z.of_nat (seq 0 (Z.to_nat n)).

Definition retry_warning (delay : N) (stderr : string) : string :=
  "Retrying in " ++ PyStr.of_nonneg delay ++ " seconds due to error: "
  ++ PyStr.strip stderr.

Definition retry_failure (retries : Z) (stderr : string) : string :=
  "Command failed after " ++ PyStr.of_int retries ++ " attempts: "
  ++ PyStr.strip stderr.

(** [run_command_with_retries], lines 42-54: the body of
    [for attempt in range(retries)], over the attempts that are left;
    falling off the end is the [return] after the loop. *)
Fixpoint attempt_loop (module : AnsibleModule) (command : string)
    (retries : Z) (delay : N) (attempts : list Z)
    : M (option string * option string) :=
  match attempts with
  | [] => ret (None, Some "Unknown error")
  | attempt :: rest =>
      r <- run_command module command ;;
      if (rc_of r =? 0)%Z then ret (Some (PyStr.strip (stdout_of r)), None)
      else if (attempt <? retries - 1)%Z then
        warn (retry_warning delay (stderr_of r)) ;;
        sleep delay ;;
        attempt_loop module command retries delay rest
      else ret (None, Some (retry_failure retries (stderr_of r)))
  end.

(** [run_command_with_retries(module, command, retries, delay)], returning
    the pair [(output, error)]. *)
Definition run_command_with_retries (module : AnsibleModule) (command : string)
    (retries : Z) (delay : N) : M (option string * option string) :=
  attempt_loop module command retries delay (range retries).

(** The call sites pass neither [retries] nor [delay]: both default to 3. *)
Definition run_command_with_default_retries (module : AnsibleModule)
    (command : string) : M (option string * option string) :=
  run_command_with_retries module command 3 3.

(** ** The cluster-admin decision *)

(** What a call comes back with: a value, or an exception that nothing
    in this file catches. *)
Inductive py_result (A : Type) : Type :=
| Returned (value : A)
| Raised (exception : string).
Arguments Returned {A} value.
Arguments Raised {A} exception.

(** ["yes" in admin_rights]: [in] on [None] is a [TypeError]. *)
Definition in_optional (needle : string) (hay : option string) : py_result bool :=
  match hay with
  | Some h => Returned (PyStr.contains needle h)
  | None => Raised "TypeError"
  end.

(** [user == "system:admin"]: [None] equals no string. *)
Definition eq_optional (o : option string) (s : string) : bool :=
  match o with
  | Some u => String.eqb u s
  | None => false
  end.

Definition user_command : string := "oc whoami".
Definition check_admin_command : string := "oc auth can-i '*' '*' --all-namespaces".

Definition identity_failure : string :=
  "Failed to execute `" ++ user_command
  ++ "`. Ensure `oc` client is configured correctly.".

Definition permission_failure (error : option string) : string :=
  "Failed to verify cluster-admin rights. Error: " ++ PyStr.of_optional error.

Definition not_admin : string := "User does not have `cluster-admin` rights.".

(** [check_cluster_admin], lines 57-76.  [if error:] tests the truth value
    of the error, and the two operands of [or] are evaluated left to
    right. *)
Definition check_cluster_admin (module : AnsibleModule)
    : M (py_result (option string * option string)) :=
  '(user, error) <- run_command_with_default_retries module user_command ;;
  if PyStr.truthy error then ret (Returned (None, Some identity_failure))
  else
    '(admin_rights, error) <-
      run_command_with_default_retries module check_admin_command ;;
    if PyStr.truthy error then
      ret (Returned (None, Some (permission_failure error)))
    else
      match in_optional "yes" admin_rights with
      | Raised e => ret (Raised e)
      | Returned has_yes =>
          if has_yes || eq_optional user "system:admin"
          then ret (Returned (user, None))
          else ret (Returned (user, Some not_admin))
      end.

(** ** The module boundary *)

(** How the process ends: [module.fail_json], [module.exit_json] (neither
    returns), or an exception left uncaught. *)
Inductive module_exit : Type :=
| FailJson (msg : string)
| ExitJson (changed : bool) (message : string)
| Uncaught (exception : string).

Definition failure_msg (user error : option string) : string :=
  "Current user `" ++ PyStr.of_optional user
  ++ "` does not have `cluster-admin` rights. " ++ PyStr.of_optional error.

Definition success_message (user : option string) : string :=
  "User `" ++ PyStr.of_optional user ++ "` has `cluster-admin` privileges.".

(** [run_module], lines 79-87, from the [AnsibleModule] it builds on. *)
Definition run_module (module : AnsibleModule) : M module_exit :=
  r <- check_cluster_admin module ;;
  match r with
  | Raised e => ret (Uncaught e)
  | Returned (user, error) =>
      if PyStr.truthy error then ret (FailJson (failure_msg user error))
      else ret (ExitJson false (success_message user))
  end.

(** ** Scenarios *)

(** A module whose commands answer from a fixed script, in order; once the
    script is used up every command fails with nothing on either stream. *)
Definition scripted (script : list cmd_result) : AnsibleModule :=
  mkModule (fun n _ => nth n script (1%Z, "", "")).

Definition fresh : World := mkWorld 0 [].

Definition ok (stdout : string) : cmd_result := (0%Z, stdout, "").
Definition ko (stderr : string) : cmd_result := (1%Z, "", stderr).

(** ** Vocabulary of the statements *)

(** The [k] commands run from position [base] on all exit non-zero. *)
Fixpoint all_fail (module : AnsibleModule) (command : string)
    (base k : nat) : bool :=
  match k with
  | O => true
  | S k' =>
      negb (rc_of (answer module base command) =? 0)%Z
      && all_fail module command (S base) k'
  end.

(** [k] failed attempts, then one that exits 0. *)
Definition succeeds_after (module : AnsibleModule) (command : string)
    (base k : nat) : bool :=
  all_fail module command base k
  && (rc_of (answer module (base + k) command) =? 0)%Z.

(** What [k] failed attempts that are not the last one leave in the
    trace: each runs the command, warns and sleeps. *)
Fixpoint failed_attempts (module : AnsibleModule) (command : string)
    (delay : N) (base k : nat) : list event :=
  match k with
  | O => []
  | S k' =>
      [EvRun command;
       EvWarn (retry_warning delay (stderr_of (answer module base command)));
       EvSleep delay]
      ++ failed_attempts module command delay (S base) k'
  end.

Definition is_sleep (e : event) : bool :=
  match e with EvSleep _ => true | _ => false end.

Definition is_run (e : event) : bool :=
  match e with EvRun _ => true | _ => false end.

Definition sleeps (t : list event) : nat := length (filter is_sleep t).
Definition runs (t : list event) : nat := length (filter is_run t).

(** The trimmed standard output and error of the command run at [n]. *)
Definition out_at (module : AnsibleModule) (command : string) (n : nat) : string :=
  PyStr.strip (stdout_of (answer module n command)).

Definition err_at (module : AnsibleModule) (command : string) (n : nat) : string :=
  PyStr.strip (stderr_of (answer module n command)).

(** The world after [command] was run once more. *)
Definition ran (command : string) (w : World) : World :=
  mkWorld (S (run_done w)) (trace w ++ [EvRun command]).

(** The world after [k] failed attempts, none of them the last. *)
Definition retried (module : AnsibleModule) (command : string) (delay : N)
    (k : nat) (w : World) : World :=
  mkWorld (run_done w + k)
    (trace w ++ failed_attempts module command delay (run_done w) k).

(** The world in which the permission command is first run, when the
    identity command succeeded at its attempt [k1] (counted from 0). *)
Definition identified (module : AnsibleModule) (k1 : nat) (w : World) : World :=
  ran user_command (retried module user_command 3 k1 w).

(** The error slot of the decision, from the trimmed outputs of the two
    commands. *)
Definition verdict (user rights : string) : option string :=
  if PyStr.contains "yes" rights || String.eqb user "system:admin"
  then None else Some not_admin.

(** The decision came back with a user and no error. *)
Definition authorized (r : py_result (option string * option string)) : bool :=
  match r with
  | Returned (Some _, None) => true
  | _ => false
  end.

(** The trailing newline of a command's output. *)
Definition nl : string := String (ascii_of_nat 10) "".

(** The end-to-end scenarios: who the identity command names and what the
    permission command prints, each at its first attempt. *)
Definition scenario (user rights : string) : AnsibleModule :=
  scripted [ok (user ++ nl); ok (rights ++ nl)].

(** The identity command fails three times. *)
Definition scenario_D : AnsibleModule :=
  scripted [ko "error: no context"; ko "error: no context";
            ko ("error: connection refused" ++ nl)].

(** The identity command succeeds at its second attempt, the permission
    command fails three times. *)
Definition scenario_E : AnsibleModule :=
  scripted [ko "timeout"; ok ("alice" ++ nl);
            ko "timeout"; ko "timeout"; ko (" Forbidden" ++ nl)].

(** Counting warnings, and the seconds slept in all. *)
Definition is_warn (e : event) : bool :=
  match e with EvWarn _ => true | _ => false end.

Definition warns (t : list event) : nat := length (filter is_warn t).

Definition seconds_of (e : event) : N :=
  match e with EvSleep seconds => seconds | _ => 0%N end.

Definition slept (t : list event) : N :=
  fold_right (fun e total => (seconds_of e + total)%N) 0%N t.

(** What one call of the runner, or of the decision, added to the trace. *)
Definition added (before after : World) : list event :=
  skipn (length (trace before)) (trace after).

(** ** Strings *)

Section StringFacts.

Import PyStr.

Lemma append_assoc (a b c : string) : (a ++ b) ++ c = a ++ b ++ c.
Proof. induction a as [|x a IH]; simpl; [reflexivity|now rewrite IH]. Qed.

Lemma append_nil_r (a : string) : a ++ "" = a.
Proof. induction a as [|x a IH]; simpl; [reflexivity|now rewrite IH]. Qed.

Lemma startswith_app (needle rest : string) :
  startswith needle (needle ++ rest) = true.
Proof.
  induction needle as [|a needle IH]; simpl; [reflexivity|].
  now rewrite Ascii.eqb_refl, IH.
Qed.

Lemma startswith_inv (needle hay : string) :
  startswith needle hay = true -> exists rest, hay = needle ++ rest.
Proof.
  revert hay; induction needle as [|a needle IH]; intros hay H; simpl in *.
  - now exists hay.
  - destruct hay as [|b hay]; [discriminate|].
    apply andb_true_iff in H as [Hab H].
    apply Ascii.eqb_eq in Hab; subst b.
    destruct (IH _ H) as [rest ->]. now exists rest.
Qed.

Lemma startswith_shorter (p q hay : string) :
  startswith (p ++ q) hay = true -> startswith p hay = true.
Proof.
  revert hay; induction p as [|a p IH]; intros hay H; simpl in *; [reflexivity|].
  destruct hay as [|b hay]; [discriminate|].
  apply andb_true_iff in H as [Hab H].
  now rewrite Hab, (IH _ H).
Qed.

Lemma contains_here (needle rest : string) :
  contains needle (needle ++ rest) = true.
Proof.
  destruct needle, rest; simpl; try reflexivity;
    rewrite ?Ascii.eqb_refl, ?startswith_app; reflexivity.
Qed.

Lemma contains_skip (needle pre hay : string) :
  contains needle hay = true -> contains needle (pre ++ hay) = true.
Proof.
  intros H; induction pre as [|c pre IH]; simpl; [exact H|].
  rewrite IH. apply orb_true_r.
Qed.

(** [needle in hay] holds exactly when [hay] splits around [needle]. *)
Lemma contains_iff (needle hay : string) :
  contains needle hay = true <->
  exists pre post, hay = pre ++ needle ++ post.
Proof.
  split.
  - induction hay as [|c hay IH]; simpl; intros H.
    + rewrite orb_false_r in H.
      destruct (startswith_inv _ _ H) as [post E].
      now exists "", post.
    + apply orb_true_iff in H as [H|H].
      * destruct (startswith_inv _ _ H) as [post E].
        now exists "", post.
      * destruct (IH H) as (pre & post & ->).
        now exists (String c pre), post.
  - intros (pre & post & ->). apply contains_skip, contains_here.
Qed.

Lemma contains_shorter (p q hay : string) :
  contains (p ++ q) hay = true -> contains p hay = true.
Proof.
  induction hay as [|c hay IH]; simpl; intros H.
  - rewrite orb_false_r in *. eapply startswith_shorter; eauto.
  - apply orb_true_iff in H as [H|H].
    + now rewrite (startswith_shorter _ _ _ H).
    + rewrite (IH H). apply orb_true_r.
Qed.

Lemma occurrences_skip (needle pre hay : string) :
  occurrences needle hay <= occurrences needle (pre ++ hay).
Proof.
  induction pre as [|c pre IH]; simpl; lia.
Qed.

(** [lstrip] drops a run of white space from the front and stops at
    the first other character. *)
Lemma lstrip_spec (s : string) :
  exists l, s = l ++ lstrip s /\ all_space l = true
            /\ tight_left (lstrip s) = true.
Proof.
  induction s as [|c s (l & E & Hl & Ht)]; [now exists ""|].
  simpl. destruct (isspace c) eqn:Hc.
  - exists (String c l). simpl. rewrite Hc, Hl, <- E. auto.
  - exists "". simpl. rewrite Hc. auto.
Qed.

(** [rstrip] drops a run of white space from the back and stops at the
    last other character. *)
Lemma rstrip_spec (s : string) :
  exists r, s = rstrip s ++ r /\ all_space r = true
            /\ tight_right (rstrip s) = true.
Proof.
  induction s as [|c s (r & E & Hr & Ht)]; [now exists ""|].
  simpl. destruct (rstrip s) as [|d t] eqn:Hs.
  - destruct (isspace c) eqn:Hc.
    + exists (String c r). simpl in *. rewrite Hc, Hr, <- E. auto.
    + exists r. simpl in *. subst r. rewrite Hc. auto.
  - exists r. rewrite E. simpl in *. auto.
Qed.

Lemma rstrip_keeps_front (s : string) :
  tight_left s = true -> tight_left (rstrip s) = true.
Proof.
  destruct s as [|c s]; [reflexivity|]. simpl. intros Hc.
  destruct (rstrip s); [|exact Hc].
  apply negb_true_iff in Hc. rewrite Hc. simpl. now rewrite Hc.
Qed.

(** [strip] cuts white space, and nothing else, from both ends. *)
Lemma strip_spec (s : string) :
  exists l r, s = l ++ strip s ++ r
              /\ all_space l = true /\ all_space r = true
              /\ tight_left (strip s) = true
              /\ tight_right (strip s) = true.
Proof.
  destruct (lstrip_spec s) as (l & El & Hl & Htl).
  destruct (rstrip_spec (lstrip s)) as (r & Er & Hr & Htr).
  exists l, r. unfold strip. repeat split; trivial.
  - now rewrite <- Er.
  - now apply rstrip_keeps_front.
Qed.

Example strip_identity_output :
  strip ("  system:admin" ++ String (ascii_of_nat 10) "") = "system:admin".
Proof. reflexivity. Qed.

End StringFacts.

(** ** The runner, one attempt at a time *)

Section Runner.

Variable module : AnsibleModule.
Variable command : string.
Variable retries : Z.
Variable delay : N.

Lemma loop_nil (w : World) :
  runState (attempt_loop module command retries delay []) w =
  ((None, Some "Unknown error"), w).
Proof. reflexivity. Qed.

Lemma loop_cons (attempt : Z) (rest : list Z) (w : World) :
  runState (attempt_loop module command retries delay (attempt :: rest)) w =
  let r := answer module (run_done w) command in
  if (rc_of r =? 0)%Z then
    ((Some (PyStr.strip (stdout_of r)), None), ran command w)
  else if (attempt <? retries - 1)%Z then
    runState (attempt_loop module command retries delay rest)
      (retried module command delay 1 w)
  else ((None, Some (retry_failure retries (stderr_of r))), ran command w).
Proof.
  simpl.
  destruct (rc_of _ =? 0)%Z; [reflexivity|].
  destruct (attempt <? retries - 1)%Z; [|reflexivity].
  unfold retried; simpl.
  now rewrite <- !app_assoc, Nat.add_1_r.
Qed.

Lemma retried_0 (w : World) : retried module command delay 0 w = w.
Proof.
  destruct w; unfold retried; simpl. now rewrite Nat.add_0_r, app_nil_r.
Qed.

Lemma retried_S (k : nat) (w : World) :
  retried module command delay k (retried module command delay 1 w) =
  retried module command delay (S k) w.
Proof.
  unfold retried; simpl.
  rewrite <- !app_assoc, Nat.add_1_r, Nat.add_succ_r. reflexivity.
Qed.

Lemma all_fail_split (base k j : nat) :
  all_fail module command base (k + j) =
  all_fail module command base k && all_fail module command (base + k) j.
Proof.
  revert base; induction k as [|k IH]; intros base; simpl.
  - now rewrite Nat.add_0_r.
  - now rewrite IH, Nat.add_succ_r, andb_assoc.
Qed.

(** [k] failing attempts that are not the last ones are skipped over,
    each leaving its run, its warning and its sleep behind. *)
Lemma loop_failures (k : nat) :
  forall (a len : nat) (w : World),
    all_fail module command (run_done w) k = true ->
    (Z.of_nat (a + k) <= retries - 1)%Z ->
    k <= len ->
    runState (attempt_loop module command retries delay
                (map Z.of_nat (seq a len))) w =
    runState (attempt_loop module command retries delay
                (map Z.of_nat (seq (a + k) (len - k))))
      (retried module command delay k w).
Proof.
  induction k as [|k IH]; intros a len w Hfail Ha Hlen.
  - now rewrite retried_0, Nat.add_0_r, Nat.sub_0_r.
  - destruct len as [|len]; [lia|].
    simpl in Hfail. apply andb_true_iff in Hfail as [Hrc Hfail].
    apply negb_true_iff in Hrc.
    cbn [seq map]. rewrite loop_cons. cbv zeta. rewrite Hrc.
    replace (Z.of_nat a <? retries - 1)%Z with true
      by (symmetry; apply Z.ltb_lt; lia).
    rewrite (IH (S a) len);
      [|cbn [retried run_done]; rewrite Nat.add_1_r; exact Hfail|lia|lia].
    rewrite retried_S. now rewrite Nat.add_succ_r.
Qed.

Lemma runner_succeeds (k : nat) (w : World) :
  (Z.of_nat k < retries)%Z ->
  succeeds_after module command (run_done w) k = true ->
  runState (run_command_with_retries module command retries delay) w =
  ((Some (out_at module command (run_done w + k)), None),
   ran command (retried module command delay k w)).
Proof.
  intros Hk H. apply andb_true_iff in H as [Hfail Hrc].
  unfold run_command_with_retries, range.
  rewrite (loop_failures k 0 (Z.to_nat retries) w Hfail); [|lia|lia].
  destruct (Z.to_nat retries - k) as [|len] eqn:E; [lia|].
  cbn [seq map]. rewrite loop_cons. cbv zeta.
  cbn [retried run_done]. now rewrite Hrc.
Qed.

Lemma runner_exhausted (w : World) :
  (1 <= retries)%Z ->
  all_fail module command (run_done w) (Z.to_nat retries) = true ->
  runState (run_command_with_retries module command retries delay) w =
  ((None,
    Some (retry_failure retries
            (stderr_of (answer module (run_done w + (Z.to_nat retries - 1))
                          command)))),
   ran command (retried module command delay (Z.to_nat retries - 1) w)).
Proof.
  intros Hr H.
  replace (Z.to_nat retries) with ((Z.to_nat retries - 1) + 1) in H by lia.
  rewrite all_fail_split in H. apply andb_true_iff in H as [Hfail Hlast].
  simpl in Hlast. rewrite andb_true_r in Hlast. apply negb_true_iff in Hlast.
  unfold run_command_with_retries, range.
  rewrite (loop_failures (Z.to_nat retries - 1) 0 (Z.to_nat retries) w Hfail);
    [|lia|lia].
  replace (Z.to_nat retries - (Z.to_nat retries - 1)) with 1 by lia.
  cbn [seq map]. rewrite loop_cons. cbv zeta.
  cbn [retried run_done]. rewrite Hlast.
  replace (Z.of_nat (0 + (Z.to_nat retries - 1)) <? retries - 1)%Z with false
    by (symmetry; apply Z.ltb_ge; lia).
  reflexivity.
Qed.

Lemma runner_no_attempt (w : World) :
  (retries <= 0)%Z ->
  runState (run_command_with_retries module command retries delay) w =
  ((None, Some "Unknown error"), w).
Proof.
  intros Hr. unfold run_command_with_retries, range.
  replace (Z.to_nat retries) with 0 by lia. reflexivity.
Qed.

(** Counting what a run of failed attempts leaves in the trace. *)
Lemma sleeps_failed_attempts (base k : nat) :
  sleeps (failed_attempts module command delay base k) = k.
Proof.
  revert base; induction k as [|k IH]; intros base; [reflexivity|].
  unfold sleeps in *; simpl. now rewrite IH.
Qed.

Lemma runs_failed_attempts (base k : nat) :
  runs (failed_attempts module command delay base k) = k.
Proof.
  revert base; induction k as [|k IH]; intros base; [reflexivity|].
  unfold runs in *; simpl. now rewrite IH.
Qed.

Lemma sleeps_then_run (t : list event) :
  sleeps (t ++ [EvRun command]) = sleeps t.
Proof. unfold sleeps. rewrite filter_app, length_app; simpl. lia. Qed.

Lemma runs_then_run (t : list event) :
  runs (t ++ [EvRun command]) = runs t + 1.
Proof. unfold runs. now rewrite filter_app, length_app. Qed.

(** Every command a run of failed attempts ran is [command]. *)
Lemma failed_attempts_runs_only (base k : nat) (other : string) :
  In (EvRun other) (failed_attempts module command delay base k) ->
  other = command.
Proof.
  revert base; induction k as [|k IH]; intros base; simpl; [tauto|].
  intros [E|[E|[E|H]]]; try discriminate; [congruence|eauto].
Qed.

(** Whatever the commands answer, the loop returns an output and no
    error, or no output and an error that is not empty. *)
Lemma loop_shape (attempts : list Z) :
  forall w : World,
    let r := fst (runState (attempt_loop module command retries delay
                              attempts) w) in
    (exists out, r = (Some out, None))
    \/ (exists msg, r = (None, Some msg) /\ PyStr.truthy (Some msg) = true).
Proof.
  induction attempts as [|attempt rest IH]; intros w.
  - right. now exists "Unknown error".
  - cbv zeta. rewrite loop_cons. cbv zeta.
    destruct (rc_of _ =? 0)%Z; [left; eexists; reflexivity|].
    destruct (attempt <? retries - 1)%Z; [apply IH|].
    right. eexists. split; reflexivity.
Qed.

End Runner.

(** ** The decision, one runner call at a time *)

Section Decision.

Variable module : AnsibleModule.

Lemma check_cluster_admin_steps (w : World) :
  runState (check_cluster_admin module) w =
  let '(user, error, w1) :=
    runState (run_command_with_default_retries module user_command) w in
  if PyStr.truthy error then (Returned (None, Some identity_failure), w1)
  else
    let '(admin_rights, error', w2) :=
      runState (run_command_with_default_retries module check_admin_command) w1 in
    if PyStr.truthy error' then
      (Returned (None, Some (permission_failure error')), w2)
    else
      match in_optional "yes" admin_rights with
      | Raised e => (Raised e, w2)
      | Returned has_yes =>
          if has_yes || eq_optional user "system:admin"
          then (Returned (user, None), w2)
          else (Returned (user, Some not_admin), w2)
      end.
Proof.
  unfold check_cluster_admin.
  generalize (run_command_with_default_retries module user_command).
  generalize (run_command_with_default_retries module check_admin_command).
  intros c2 c1; simpl.
  destruct (runState c1 w) as [[user error] w1].
  destruct (PyStr.truthy error); [reflexivity|]; simpl.
  destruct (runState c2 w1) as [[rights error'] w2].
  destruct (PyStr.truthy error'); [reflexivity|]; simpl.
  destruct (in_optional "yes" rights) as [has_yes|e]; [|reflexivity].
  destruct (has_yes || eq_optional user "system:admin"); reflexivity.
Qed.

Lemma decision_identity_exhausted (w : World) :
  all_fail module user_command (run_done w) 3 = true ->
  runState (check_cluster_admin module) w =
  (Returned (None, Some identity_failure), identified module 2 w).
Proof.
  intros H. rewrite check_cluster_admin_steps.
  unfold run_command_with_default_retries.
  rewrite runner_exhausted; [reflexivity|lia|exact H].
Qed.

Lemma decision_permission_exhausted (k1 : nat) (w : World) :
  k1 < 3 ->
  succeeds_after module user_command (run_done w) k1 = true ->
  all_fail module check_admin_command (S (run_done w + k1)) 3 = true ->
  runState (check_cluster_admin module) w =
  (Returned
     (None,
      Some (permission_failure
              (Some (retry_failure 3
                       (stderr_of (answer module (S (run_done w + k1) + 2)
                                     check_admin_command)))))),
   ran check_admin_command
     (retried module check_admin_command 3 2 (identified module k1 w))).
Proof.
  intros Hk H1 H2. rewrite check_cluster_admin_steps.
  unfold run_command_with_default_retries.
  rewrite (runner_succeeds _ _ _ _ k1); [|lia|exact H1].
  cbn [PyStr.truthy]. fold (identified module k1 w).
  rewrite runner_exhausted; [reflexivity|lia|exact H2].
Qed.

Lemma decision_both_succeed (k1 k2 : nat) (w : World) :
  k1 < 3 -> k2 < 3 ->
  succeeds_after module user_command (run_done w) k1 = true ->
  succeeds_after module check_admin_command (S (run_done w + k1)) k2 = true ->
  runState (check_cluster_admin module) w =
  (Returned
     (Some (out_at module user_command (run_done w + k1)),
      verdict (out_at module user_command (run_done w + k1))
        (out_at module check_admin_command (S (run_done w + k1) + k2))),
   ran check_admin_command
     (retried module check_admin_command 3 k2 (identified module k1 w))).
Proof.
  intros Hk1 Hk2 H1 H2. rewrite check_cluster_admin_steps.
  unfold run_command_with_default_retries.
  rewrite (runner_succeeds _ _ _ _ k1); [|lia|exact H1].
  cbn [PyStr.truthy]. fold (identified module k1 w).
  rewrite (runner_succeeds _ _ _ _ k2); [|lia|exact H2].
  cbn [PyStr.truthy in_optional eq_optional]. unfold verdict.
  destruct (_ || _); reflexivity.
Qed.

Lemma run_module_steps (w : World) :
  runState (run_module module) w =
  let '(r, w') := runState (check_cluster_admin module) w in
  match r with
  | Raised e => (Uncaught e, w')
  | Returned (user, error) =>
      if PyStr.truthy error then (FailJson (failure_msg user error), w')
      else (ExitJson false (success_message user), w')
  end.
Proof.
  unfold run_module.
  generalize (check_cluster_admin module); intros c; simpl.
  destruct (runState c w) as [[[user error]|e] w']; [|reflexivity].
  destruct (PyStr.truthy error); reflexivity.
Qed.

(** The [in] test of the decision never meets [None]: the decision
    always returns. *)
Lemma check_cluster_admin_returns (w : World) :
  exists user error,
    fst (runState (check_cluster_admin module) w) = Returned (user, error).
Proof.
  rewrite check_cluster_admin_steps.
  unfold run_command_with_default_retries, run_command_with_retries.
  destruct (loop_shape module user_command 3 3 (range 3) w)
    as [[out E]|[msg [E T]]]; cbv zeta in E;
    destruct (runState _ w) as [[user error] w1]; cbn [fst] in E;
    injection E as -> ->; [|rewrite T; cbn [fst]; eauto].
  cbn [PyStr.truthy].
  destruct (loop_shape module check_admin_command 3 3 (range 3) w1)
    as [[out' E]|[msg [E T]]]; cbv zeta in E;
    destruct (runState _ w1) as [[rights error] w2]; cbn [fst] in E;
    injection E as -> ->; [|rewrite T; cbn [fst]; eauto].
  cbn [PyStr.truthy in_optional].
  destruct (_ || _); cbn [fst]; eauto.
Qed.

End Decision.

(** ** Properties of the runner *)

(** C2. For every command and attempt cap [retries]: when the first [k]
    attempts ([k < retries]) exit non-zero and the next one exits 0, the
    runner returns that attempt's standard output, trimmed, and no error;
    it runs the command [k + 1] times and no more, and sleeps exactly [k]
    times, once after each failed attempt. *)
Theorem runner_returns_first_success
    (module : AnsibleModule) (command : string) (retries : Z) (delay : N)
    (k : nat) (w : World) :
  (Z.of_nat k < retries)%Z ->
  succeeds_after module command (run_done w) k = true ->
  let new :=
    (failed_attempts module command delay (run_done w) k
     ++ [EvRun command])%list in
  runState (run_command_with_retries module command retries delay) w =
  ((Some (PyStr.strip (stdout_of (answer module (run_done w + k) command))),
    None),
   mkWorld (run_done w + k + 1) (trace w ++ new))
  /\ runs new = k + 1
  /\ sleeps new = k.
Proof.
  intros Hk H new. split; [|split].
  - rewrite (runner_succeeds _ _ _ _ k w Hk H).
    unfold ran, retried, out_at, new; cbn [run_done trace].
    now rewrite <- app_assoc, Nat.add_1_r.
  - unfold new. now rewrite runs_then_run, runs_failed_attempts.
  - unfold new. now rewrite sleeps_then_run, sleeps_failed_attempts.
Qed.

Lemma runner_returns_first_success_witness :
  (Z.of_nat 2 < 3)%Z
  /\ succeeds_after (scripted [ko "a"; ko "b"; ok " alice "]) "oc whoami" 0 2
     = true
  /\ runState
       (run_command_with_retries (scripted [ko "a"; ko "b"; ok " alice "])
          "oc whoami" 3 3) fresh =
     ((Some "alice", None),
      mkWorld 3
        [EvRun "oc whoami"; EvWarn "Retrying in 3 seconds due to error: a";
         EvSleep 3;
         EvRun "oc whoami"; EvWarn "Retrying in 3 seconds due to error: b";
         EvSleep 3;
         EvRun "oc whoami"]).
Proof.
  split; [reflexivity|]. split; [reflexivity|].
  exact (proj1 (runner_returns_first_success
                  (scripted [ko "a"; ko "b"; ok " alice "]) "oc whoami" 3 3 2
                  fresh eq_refl eq_refl)).
Defined.

(** C3. For every attempt cap [retries >= 1]: when all [retries] attempts
    exit non-zero, the runner returns no output and the error
    ["Command failed after <retries> attempts: <stderr>"], where the count
    is [retries] in decimal and the standard error is that of the last
    attempt alone, trimmed; it sleeps [retries - 1] times, and the last
    thing it does is run the command, not sleep. *)
Theorem runner_fails_after_all_attempts
    (module : AnsibleModule) (command : string) (retries : Z) (delay : N)
    (w : World) :
  (1 <= retries)%Z ->
  all_fail module command (run_done w) (Z.to_nat retries) = true ->
  let n := Z.to_nat retries in
  let last_stderr := err_at module command (run_done w + (n - 1)) in
  let msg :=
    "Command failed after " ++ PyStr.of_int retries ++ " attempts: "
    ++ last_stderr in
  let new :=
    (failed_attempts module command delay (run_done w) (n - 1)
     ++ [EvRun command])%list in
  runState (run_command_with_retries module command retries delay) w =
  ((None, Some msg), mkWorld (run_done w + n) (trace w ++ new))
  /\ PyStr.contains (PyStr.of_int retries) msg = true
  /\ PyStr.contains last_stderr msg = true
  /\ sleeps new = n - 1
  /\ last new (EvSleep delay) = EvRun command.
Proof.
  intros Hr H n last_stderr msg new. repeat split.
  - rewrite (runner_exhausted _ _ _ _ w Hr H).
    unfold ran, retried, msg, new, last_stderr, err_at, retry_failure, n;
      cbn [run_done trace].
    rewrite <- app_assoc. do 3 f_equal. lia.
  - unfold msg. apply contains_iff.
    exists "Command failed after ", (" attempts: " ++ last_stderr).
    reflexivity.
  - unfold msg. apply contains_iff.
    exists ("Command failed after " ++ PyStr.of_int retries ++ " attempts: "), "".
    now rewrite !append_assoc, append_nil_r.
  - unfold new. now rewrite sleeps_then_run, sleeps_failed_attempts.
  - unfold new. apply last_last.
Qed.

Lemma runner_fails_after_all_attempts_witness :
  (1 <= 3)%Z
  /\ all_fail scenario_D "oc whoami" 0 (Z.to_nat 3) = true
  /\ runState (run_command_with_retries scenario_D "oc whoami" 3 3) fresh =
     ((None,
       Some "Command failed after 3 attempts: error: connection refused"),
      mkWorld 3
        [EvRun "oc whoami";
         EvWarn "Retrying in 3 seconds due to error: error: no context";
         EvSleep 3;
         EvRun "oc whoami";
         EvWarn "Retrying in 3 seconds due to error: error: no context";
         EvSleep 3;
         EvRun "oc whoami"]).
Proof.
  split; [discriminate|]. split; [reflexivity|].
  exact (proj1 (runner_fails_after_all_attempts scenario_D "oc whoami" 3 3
                  fresh ltac:(discriminate) eq_refl)).
Defined.

(** C9. When the attempt loop ends without returning from inside it,
    which is what happens for [retries <= 0] (no attempt is made, the
    world is left as it was), the runner still returns a failure: no
    output and the non-empty error ["Unknown error"]. *)
Theorem runner_falls_through_to_generic_failure
    (module : AnsibleModule) (command : string) (retries : Z) (delay : N)
    (w : World) :
  (retries <= 0)%Z ->
  range retries = []
  /\ exists error,
       runState (run_command_with_retries module command retries delay) w =
       ((None, Some error), w)
       /\ error = "Unknown error"
       /\ PyStr.truthy (Some error) = true.
Proof.
  intros Hr. split.
  - unfold range. now replace (Z.to_nat retries) with 0 by lia.
  - exists "Unknown error". split; [|split; reflexivity].
    now apply runner_no_attempt.
Qed.

Lemma runner_falls_through_to_generic_failure_witness :
  (0 <= 0)%Z
  /\ runState (run_command_with_retries (scenario "alice" "yes") "oc whoami" 0 3)
       fresh = ((None, Some "Unknown error"), fresh).
Proof.
  split; [discriminate|].
  destruct (runner_falls_through_to_generic_failure
              (scenario "alice" "yes") "oc whoami" 0 3 fresh
              ltac:(discriminate)) as [_ [error [Hrun [-> _]]]].
  exact Hrun.
Defined.

(** ** Properties of the decision *)

(** C1. When both commands succeed (the identity command at its attempt
    [k1], the permission command at its attempt [k2], each within the
    three attempts), the decision authorizes the user exactly when the
    trimmed permission output has ["yes"] somewhere inside it, case
    sensitively, or the trimmed identity is exactly ["system:admin"];
    when it authorizes it returns [(user, None)], and otherwise it still
    returns the user. *)
Theorem check_cluster_admin_authorizes_iff
    (module : AnsibleModule) (w : World) (k1 k2 : nat) :
  k1 < 3 -> k2 < 3 ->
  succeeds_after module user_command (run_done w) k1 = true ->
  succeeds_after module check_admin_command (S (run_done w + k1)) k2 = true ->
  let user := out_at module user_command (run_done w + k1) in
  let rights := out_at module check_admin_command (S (run_done w + k1) + k2) in
  let result := fst (runState (check_cluster_admin module) w) in
  (result = Returned (Some user, None) <->
   (exists pre post, rights = pre ++ "yes" ++ post) \/ user = "system:admin")
  /\ (authorized result = true <-> result = Returned (Some user, None))
  /\ (exists error, result = Returned (Some user, error)).
Proof.
  intros Hk1 Hk2 H1 H2 user rights result.
  assert (E : result = Returned (Some user, verdict user rights)).
  { unfold result. now rewrite (decision_both_succeed module k1 k2 w). }
  rewrite E. unfold verdict.
  rewrite <- contains_iff, <- String.eqb_eq, <- orb_true_iff.
  destruct (_ || _); cbn [authorized]; repeat split; eauto;
    try discriminate; intros; try reflexivity; try discriminate.
Qed.

Lemma check_cluster_admin_authorizes_iff_witness :
  succeeds_after (scenario "system:admin" "no") user_command 0 0 = true
  /\ succeeds_after (scenario "system:admin" "no") check_admin_command 1 0
     = true
  /\ fst (runState (check_cluster_admin (scenario "system:admin" "no")) fresh)
     = Returned (Some "system:admin", None).
Proof.
  split; [reflexivity|]. split; [reflexivity|].
  apply (proj1 (check_cluster_admin_authorizes_iff
                  (scenario "system:admin" "no") fresh 0 0
                  ltac:(repeat constructor) ltac:(repeat constructor)
                  eq_refl eq_refl)).
  right. reflexivity.
Defined.

(** C4. The two failure paths differ in what they tell.  When the
    identity command fails all three attempts, the decision's error is the
    fixed configuration hint, whatever the standard error was, and the
    runner's failure message is no part of it.  When the identity command
    succeeds and the permission command fails all three attempts, the
    decision's error has the runner's failure message inside it, and with
    it the trimmed standard error of the last attempt. *)
Theorem error_detail_is_asymmetric
    (id_module : AnsibleModule) (id_w : World)
    (perm_module : AnsibleModule) (perm_w : World) (k1 : nat) :
  all_fail id_module user_command (run_done id_w) 3 = true ->
  k1 < 3 ->
  succeeds_after perm_module user_command (run_done perm_w) k1 = true ->
  all_fail perm_module check_admin_command (S (run_done perm_w + k1)) 3
  = true ->
  let id_raw :=
    retry_failure 3 (stderr_of (answer id_module (run_done id_w + 2)
                                  user_command)) in
  let perm_raw :=
    retry_failure 3 (stderr_of (answer perm_module (S (run_done perm_w + k1) + 2)
                                  check_admin_command)) in
  (fst (runState (run_command_with_default_retries id_module user_command) id_w)
   = (None, Some id_raw)
   /\ fst (runState (check_cluster_admin id_module) id_w)
      = Returned
          (None,
           Some "Failed to execute `oc whoami`. Ensure `oc` client is configured correctly.")
   /\ PyStr.contains id_raw
        "Failed to execute `oc whoami`. Ensure `oc` client is configured correctly."
      = false)
  /\ (fst (runState (run_command_with_default_retries perm_module
                       check_admin_command) (identified perm_module k1 perm_w))
      = (None, Some perm_raw)
      /\ fst (runState (check_cluster_admin perm_module) perm_w)
         = Returned
             (None,
              Some ("Failed to verify cluster-admin rights. Error: " ++ perm_raw))
      /\ PyStr.contains perm_raw
           ("Failed to verify cluster-admin rights. Error: " ++ perm_raw)
         = true
      /\ PyStr.contains
           (err_at perm_module check_admin_command (S (run_done perm_w + k1) + 2))
           ("Failed to verify cluster-admin rights. Error: " ++ perm_raw)
         = true).
Proof.
  intros Hid Hk1 Hperm1 Hperm2 id_raw perm_raw. split; [split; [|split]|].
  - unfold run_command_with_default_retries.
    rewrite runner_exhausted; [reflexivity|lia|exact Hid].
  - now rewrite decision_identity_exhausted.
  - destruct (PyStr.contains id_raw _) eqn:E; [|reflexivity].
    apply (contains_shorter "Command failed") in E. discriminate E.
  - split; [|split; [|split]].
    + unfold run_command_with_default_retries.
      rewrite runner_exhausted; [reflexivity|lia|exact Hperm2].
    + now rewrite (decision_permission_exhausted perm_module k1).
    + apply contains_skip, contains_iff. exists "", "".
      now rewrite append_nil_r.
    + apply contains_skip, contains_iff.
      exists "Command failed after 3 attempts: ", "".
      now rewrite append_nil_r.
Qed.

Lemma error_detail_is_asymmetric_witness :
  all_fail scenario_D user_command 0 3 = true
  /\ succeeds_after scenario_E user_command 0 1 = true
  /\ all_fail scenario_E check_admin_command 2 3 = true
  /\ fst (runState (check_cluster_admin scenario_D) fresh)
     = Returned
         (None,
          Some "Failed to execute `oc whoami`. Ensure `oc` client is configured correctly.")
  /\ fst (runState (check_cluster_admin scenario_E) fresh)
     = Returned
         (None,
          Some "Failed to verify cluster-admin rights. Error: Command failed after 3 attempts: Forbidden").
Proof.
  do 3 (split; [reflexivity|]).
  destruct (error_detail_is_asymmetric scenario_D fresh scenario_E fresh 1
              eq_refl ltac:(repeat constructor) eq_refl eq_refl)
    as [[_ [Hid _]] [_ [Hperm _]]].
  split; [exact Hid|exact Hperm].
Defined.

(** C5. When the identity command fails all three attempts, the decision
    returns no user and an error that has ["Ensure"] inside it; exactly
    three commands were run, and the permission command is not one of
    them. *)
Theorem identity_failure_short_circuits (module : AnsibleModule) (w : World) :
  all_fail module user_command (run_done w) 3 = true ->
  exists (error : string) (w' : World) (new : list event),
    runState (check_cluster_admin module) w = (Returned (None, Some error), w')
    /\ PyStr.contains "Ensure" error = true
    /\ run_done w' = run_done w + 3
    /\ trace w' = (trace w ++ new)%list
    /\ runs new = 3
    /\ ~ In (EvRun check_admin_command) new.
Proof.
  intros H.
  exists identity_failure, (identified module 2 w),
    (failed_attempts module user_command 3 (run_done w) 2
     ++ [EvRun user_command])%list.
  split; [now apply decision_identity_exhausted|].
  split; [reflexivity|].
  split; [cbn [identified ran retried run_done]; lia|].
  split; [cbn [identified ran retried trace]; now rewrite <- app_assoc|].
  split; [now rewrite runs_then_run, runs_failed_attempts|].
  intros Hin. apply in_app_or in Hin as [Hin|[Hin|[]]].
  - apply failed_attempts_runs_only in Hin. discriminate Hin.
  - discriminate Hin.
Qed.

Lemma identity_failure_short_circuits_witness :
  all_fail scenario_D user_command 0 3 = true
  /\ exists w',
       runState (check_cluster_admin scenario_D) fresh =
       (Returned
          (None,
           Some "Failed to execute `oc whoami`. Ensure `oc` client is configured correctly."),
        w')
       /\ run_done w' = 3.
Proof.
  split; [reflexivity|].
  destruct (identity_failure_short_circuits scenario_D fresh eq_refl)
    as (error & w' & new & Hrun & _ & Hdone & _).
  exists w'. split; [|exact Hdone].
  rewrite Hrun. vm_compute in Hrun. now inversion Hrun.
Defined.

(** C6, as the code has it.  When both commands succeed, the trimmed
    permission output is ["Yes please"] and the identity is not
    ["system:admin"], the decision does not authorize: the match is case
    sensitive and ["Yes please"] has no lower-case ["yes"] in it, so the
    user comes back with the not-an-admin error. *)
Theorem yes_please_is_not_authorized
    (module : AnsibleModule) (w : World) (k1 k2 : nat) :
  k1 < 3 -> k2 < 3 ->
  succeeds_after module user_command (run_done w) k1 = true ->
  succeeds_after module check_admin_command (S (run_done w + k1)) k2 = true ->
  out_at module check_admin_command (S (run_done w + k1) + k2) = "Yes please" ->
  out_at module user_command (run_done w + k1) <> "system:admin" ->
  PyStr.contains "yes" "Yes please" = false
  /\ fst (runState (check_cluster_admin module) w) =
     Returned (Some (out_at module user_command (run_done w + k1)),
               Some "User does not have `cluster-admin` rights.")
  /\ authorized (fst (runState (check_cluster_admin module) w)) = false.
Proof.
  intros Hk1 Hk2 H1 H2 Hrights Huser.
  rewrite (decision_both_succeed module k1 k2 w Hk1 Hk2 H1 H2).
  rewrite Hrights. unfold verdict.
  apply String.eqb_neq in Huser. rewrite Huser.
  repeat split.
Qed.

Lemma yes_please_is_not_authorized_witness :
  succeeds_after (scenario "alice" "Yes please") user_command 0 0 = true
  /\ succeeds_after (scenario "alice" "Yes please") check_admin_command 1 0
     = true
  /\ out_at (scenario "alice" "Yes please") check_admin_command 1 = "Yes please"
  /\ out_at (scenario "alice" "Yes please") user_command 0 <> "system:admin"
  /\ fst (runState (check_cluster_admin (scenario "alice" "Yes please")) fresh)
     = Returned (Some "alice", Some "User does not have `cluster-admin` rights.").
Proof.
  do 3 (split; [reflexivity|]). split; [discriminate|].
  exact (proj1 (proj2 (yes_please_is_not_authorized
                         (scenario "alice" "Yes please") fresh 0 0
                         ltac:(repeat constructor) ltac:(repeat constructor)
                         eq_refl eq_refl eq_refl ltac:(discriminate)))).
Defined.

(** C6 as the specification words it does not hold: with identity
    ["alice"] and permission output ["Yes please"] the decision does not
    authorize. *)
Lemma yes_please_authorized_counterexample :
  out_at (scenario "alice" "Yes please") user_command 0 = "alice"
  /\ out_at (scenario "alice" "Yes please") check_admin_command 1 = "Yes please"
  /\ authorized
       (fst (runState (check_cluster_admin (scenario "alice" "Yes please"))
               fresh)) = false
  /\ fst (runState (check_cluster_admin (scenario "alice" "Yes please")) fresh)
     <> Returned (Some "alice", None).
Proof. repeat split; try reflexivity. discriminate. Qed.

(** C7, as the code has it.  When both commands succeed, the trimmed
    permission output has no ["yes"] in it and the trimmed identity is not
    ["system:admin"], the decision returns the user together with the
    error ["User does not have `cluster-admin` rights."], the role name
    between backquotes. *)
Theorem not_authorized_returns_user_and_error
    (module : AnsibleModule) (w : World) (k1 k2 : nat) :
  k1 < 3 -> k2 < 3 ->
  succeeds_after module user_command (run_done w) k1 = true ->
  succeeds_after module check_admin_command (S (run_done w + k1)) k2 = true ->
  PyStr.contains "yes"
    (out_at module check_admin_command (S (run_done w + k1) + k2)) = false ->
  out_at module user_command (run_done w + k1) <> "system:admin" ->
  fst (runState (check_cluster_admin module) w) =
  Returned (Some (out_at module user_command (run_done w + k1)),
            Some "User does not have `cluster-admin` rights.").
Proof.
  intros Hk1 Hk2 H1 H2 Hrights Huser.
  rewrite (decision_both_succeed module k1 k2 w Hk1 Hk2 H1 H2).
  unfold verdict. apply String.eqb_neq in Huser.
  now rewrite Hrights, Huser.
Qed.

Lemma not_authorized_returns_user_and_error_witness :
  succeeds_after (scenario "alice" "no") user_command 0 0 = true
  /\ succeeds_after (scenario "alice" "no") check_admin_command 1 0 = true
  /\ PyStr.contains "yes" (out_at (scenario "alice" "no") check_admin_command 1)
     = false
  /\ out_at (scenario "alice" "no") user_command 0 <> "system:admin"
  /\ fst (runState (check_cluster_admin (scenario "alice" "no")) fresh)
     = Returned (Some "alice", Some "User does not have `cluster-admin` rights.").
Proof.
  do 3 (split; [reflexivity|]). split; [discriminate|].
  exact (not_authorized_returns_user_and_error
           (scenario "alice" "no") fresh 0 0
           ltac:(repeat constructor) ltac:(repeat constructor)
           eq_refl eq_refl eq_refl ltac:(discriminate)).
Defined.

(** C7 as the specification words it does not hold: the error of
    scenario C is not ["User does not have cluster-admin rights."], the
    text without backquotes. *)
Lemma not_authorized_plain_text_counterexample :
  PyStr.contains "yes" (out_at (scenario "alice" "no") check_admin_command 1)
  = false
  /\ out_at (scenario "alice" "no") user_command 0 <> "system:admin"
  /\ fst (runState (check_cluster_admin (scenario "alice" "no")) fresh)
     <> Returned (Some "alice", Some "User does not have cluster-admin rights.").
Proof. repeat split; try reflexivity; discriminate. Qed.

(** ** Properties of the module boundary *)

(** C8, as the code has it.  Whenever the decision comes back with an
    error, the module fails with the message
    ["Current user `<slot>` does not have `cluster-admin` rights. <detail>"],
    where the detail is the decision's error and the slot is the user's
    name when the decision returned one and the four letters [None] when
    it did not; when the identity command failed all three attempts the
    decision returns no user, so the slot reads [None]. *)
Theorem run_module_failure_message
    (module : AnsibleModule) (w : World) (user : option string)
    (detail : string) :
  fst (runState (check_cluster_admin module) w) = Returned (user, Some detail) ->
  PyStr.truthy (Some detail) = true ->
  let slot := match user with Some name => name | None => "None" end in
  fst (runState (run_module module) w) =
  FailJson ("Current user `" ++ slot
            ++ "` does not have `cluster-admin` rights. " ++ detail)
  /\ (all_fail module user_command (run_done w) 3 = true ->
      user = None /\ slot = "None").
Proof.
  intros Hcheck Htruthy slot. split.
  - rewrite run_module_steps.
    destruct (runState (check_cluster_admin module) w) as [r w'].
    cbn [fst] in Hcheck. subst r. now rewrite Htruthy.
  - intros Hfail.
    rewrite (decision_identity_exhausted module w Hfail) in Hcheck.
    cbn [fst] in Hcheck. unfold slot.
    injection Hcheck as <- _. now split.
Qed.

Lemma run_module_failure_message_witness :
  fst (runState (check_cluster_admin scenario_D) fresh)
  = Returned (None, Some identity_failure)
  /\ PyStr.truthy (Some identity_failure) = true
  /\ fst (runState (run_module scenario_D) fresh) =
     FailJson "Current user `None` does not have `cluster-admin` rights. Failed to execute `oc whoami`. Ensure `oc` client is configured correctly.".
Proof.
  do 2 (split; [reflexivity|]).
  exact (proj1 (run_module_failure_message scenario_D fresh None
                  identity_failure eq_refl eq_refl)).
Defined.

(** C8 as the specification words it does not hold: when the identity
    command fails three times the user slot of the module's message is not
    empty, it reads [None]. *)
Lemma empty_user_slot_counterexample :
  all_fail scenario_D user_command 0 3 = true
  /\ exists msg,
       fst (runState (run_module scenario_D) fresh) = FailJson msg
       /\ PyStr.startswith "Current user `None` does not have" msg = true
       /\ forall detail,
            msg <> "Current user `` does not have `cluster-admin` rights. "
                   ++ detail.
Proof.
  split; [reflexivity|].
  eexists. split; [reflexivity|]. split; [reflexivity|].
  intros detail E. discriminate E.
Qed.

(** C10. When both commands succeed and the user is not authorized, the
    module's failure message is
    ["Current user `<user>` does not have `cluster-admin` rights. User does not have `cluster-admin` rights."]:
    the phrase ["does not have `cluster-admin` rights."] stands in it
    twice, once from the outer template and once from the detail. *)
Theorem not_authorized_message_repeats_phrase
    (module : AnsibleModule) (w : World) (k1 k2 : nat) :
  k1 < 3 -> k2 < 3 ->
  succeeds_after module user_command (run_done w) k1 = true ->
  succeeds_after module check_admin_command (S (run_done w + k1)) k2 = true ->
  PyStr.contains "yes"
    (out_at module check_admin_command (S (run_done w + k1) + k2)) = false ->
  out_at module user_command (run_done w + k1) <> "system:admin" ->
  let user := out_at module user_command (run_done w + k1) in
  let phrase := "does not have `cluster-admin` rights." in
  let msg :=
    "Current user `" ++ user
    ++ "` does not have `cluster-admin` rights. User does not have `cluster-admin` rights." in
  fst (runState (run_module module) w) = FailJson msg
  /\ msg = ("Current user `" ++ user ++ "` ") ++ phrase ++ " User " ++ phrase
  /\ 2 <= PyStr.occurrences phrase msg.
Proof.
  intros Hk1 Hk2 H1 H2 Hrights Huser user phrase msg. split; [|split].
  - rewrite run_module_steps.
    rewrite (decision_both_succeed module k1 k2 w Hk1 Hk2 H1 H2).
    unfold verdict. apply String.eqb_neq in Huser.
    rewrite Hrights, Huser. reflexivity.
  - unfold msg. now rewrite !append_assoc.
  - unfold msg.
    change ("Current user `" ++ user ++ _)
      with (String.append "Current user `"
              (user ++ "` does not have `cluster-admin` rights. User does not have `cluster-admin` rights.")).
    rewrite <- append_assoc.
    etransitivity; [|apply occurrences_skip]. apply Nat.eq_le_incl. reflexivity.
Qed.

Lemma not_authorized_message_repeats_phrase_witness :
  succeeds_after (scenario "alice" "no") user_command 0 0 = true
  /\ succeeds_after (scenario "alice" "no") check_admin_command 1 0 = true
  /\ PyStr.contains "yes" (out_at (scenario "alice" "no") check_admin_command 1)
     = false
  /\ out_at (scenario "alice" "no") user_command 0 <> "system:admin"
  /\ fst (runState (run_module (scenario "alice" "no")) fresh) =
     FailJson "Current user `alice` does not have `cluster-admin` rights. User does not have `cluster-admin` rights."
  /\ PyStr.occurrences "does not have `cluster-admin` rights."
       "Current user `alice` does not have `cluster-admin` rights. User does not have `cluster-admin` rights."
     = 2.
Proof.
  do 3 (split; [reflexivity|]). split; [discriminate|].
  split; [|reflexivity].
  exact (proj1 (not_authorized_message_repeats_phrase
                  (scenario "alice" "no") fresh 0 0
                  ltac:(repeat constructor) ltac:(repeat constructor)
                  eq_refl eq_refl eq_refl ltac:(discriminate))).
Defined.


(** ** Trimming padded text *)

Section Trimming.

Import PyStr.

Lemma lstrip_padded (l t : string) :
  all_space l = true -> lstrip (l ++ t) = lstrip t.
Proof.
  induction l as [|c l IH]; simpl; [reflexivity|].
  intros H. apply andb_true_iff in H as [Hc Hl]. now rewrite Hc, IH.
Qed.

Lemma lstrip_all_space (s : string) : all_space s = true -> lstrip s = "".
Proof.
  intros H. rewrite <- (append_nil_r s). now rewrite lstrip_padded.
Qed.

Lemma rstrip_all_space (s : string) : all_space s = true -> rstrip s = "".
Proof.
  induction s as [|c s IH]; simpl; [reflexivity|].
  intros H. apply andb_true_iff in H as [Hc Hs]. now rewrite IH, Hc.
Qed.

Lemma rstrip_padded (t r : string) :
  all_space r = true -> rstrip (t ++ r) = rstrip t.
Proof.
  intros Hr. induction t as [|c t IH]; simpl.
  - now apply rstrip_all_space.
  - now rewrite IH.
Qed.

Lemma rstrip_tight (t : string) : tight_right t = true -> rstrip t = t.
Proof.
  induction t as [|c t IH]; [reflexivity|].
  destruct t as [|d t]; simpl in *.
  - intros H. apply negb_true_iff in H. now rewrite H.
  - intros H. specialize (IH H). simpl in IH.
    destruct (rstrip t); now rewrite IH.
Qed.

(** White space around a text that has none at its own ends is all that
    [strip] removes. *)
Lemma strip_padded (l s r : string) (c : ascii) :
  all_space l = true -> all_space r = true ->
  tight_left (String c s) = true -> tight_right (String c s) = true ->
  strip (l ++ String c s ++ r) = String c s.
Proof.
  intros Hl Hr Htl Htr. unfold strip. rewrite lstrip_padded by exact Hl.
  simpl in Htl. apply negb_true_iff in Htl.
  change (String c s ++ r) with (String c (s ++ r)).
  cbn [lstrip]. rewrite Htl.
  change (String c (s ++ r)) with (String c s ++ r).
  rewrite rstrip_padded by exact Hr. now apply rstrip_tight.
Qed.

Lemma strip_all_space (s : string) : all_space s = true -> strip s = "".
Proof. intros H. unfold strip. now rewrite lstrip_all_space. Qed.

End Trimming.

(** ** Every run of the runner *)

Section RunnerCases.

Variable module : AnsibleModule.
Variable command : string.

Lemma all_fail_nth (k : nat) :
  forall base i,
    all_fail module command base k = true -> i < k ->
    rc_of (answer module (base + i) command) <> 0%Z.
Proof.
  induction k as [|k IH]; intros base i H Hi; [lia|].
  simpl in H. apply andb_true_iff in H as [Hrc H].
  destruct i as [|i].
  - rewrite Nat.add_0_r. apply Z.eqb_neq. now apply negb_true_iff.
  - rewrite Nat.add_succ_r. apply (IH (S base) i H). lia.
Qed.

(** Among [n] answers either all exit non-zero or there is a first one
    that exits 0. *)
Lemma first_zero_exit (n : nat) :
  forall base,
    all_fail module command base n = true
    \/ exists k, k < n /\ succeeds_after module command base k = true.
Proof.
  induction n as [|n IH]; intros base; [now left|].
  destruct (rc_of (answer module base command) =? 0)%Z eqn:Hrc.
  - right. exists 0. split; [lia|].
    unfold succeeds_after. simpl. now rewrite Nat.add_0_r.
  - destruct (IH (S base)) as [H|(k & Hk & H)].
    + left. simpl. now rewrite Hrc, H.
    + right. exists (S k). split; [lia|].
      unfold succeeds_after in *. simpl.
      now rewrite Hrc, Nat.add_succ_r.
Qed.

Variable retries : Z.
Variable delay : N.

(** The three ways a call of the runner can go. *)
Lemma runner_cases (w : World) :
  ((retries <= 0)%Z
   /\ runState (run_command_with_retries module command retries delay) w =
      ((None, Some "Unknown error"), w))
  \/ (exists k,
        (Z.of_nat k < retries)%Z
        /\ succeeds_after module command (run_done w) k = true
        /\ runState (run_command_with_retries module command retries delay) w =
           ((Some (out_at module command (run_done w + k)), None),
            ran command (retried module command delay k w)))
  \/ ((1 <= retries)%Z
      /\ all_fail module command (run_done w) (Z.to_nat retries) = true
      /\ runState (run_command_with_retries module command retries delay) w =
         ((None,
           Some (retry_failure retries
                   (stderr_of (answer module
                                 (run_done w + (Z.to_nat retries - 1))
                                 command)))),
          ran command (retried module command delay (Z.to_nat retries - 1) w))).
Proof.
  destruct (Z.leb_spec retries 0) as [Hr|Hr].
  - left. split; [exact Hr|]. now apply runner_no_attempt.
  - right.
    destruct (first_zero_exit (Z.to_nat retries) (run_done w))
      as [H|(k & Hk & H)].
    + right. split; [lia|]. split; [exact H|].
      apply runner_exhausted; [lia|exact H].
    + left. exists k. split; [lia|]. split; [exact H|].
      apply runner_succeeds; [lia|exact H].
Qed.

Lemma added_app (w : World) (n : nat) (new : list event) :
  added w (mkWorld n (trace w ++ new)) = new.
Proof.
  unfold added; cbn [trace].
  rewrite skipn_app, skipn_all, Nat.sub_diag. reflexivity.
Qed.

Lemma warns_failed_attempts (base k : nat) :
  warns (failed_attempts module command delay base k) = k.
Proof.
  revert base; induction k as [|k IH]; intros base; [reflexivity|].
  unfold warns in *; simpl. now rewrite IH.
Qed.

Lemma slept_failed_attempts (base k : nat) :
  slept (failed_attempts module command delay base k) = (delay * N.of_nat k)%N.
Proof.
  revert base; induction k as [|k IH]; intros base.
  - simpl. lia.
  - cbn [failed_attempts app slept fold_right seconds_of].
    fold (slept (failed_attempts module command delay (S base) k)).
    rewrite IH. lia.
Qed.

Lemma runs_app (a b : list event) : runs (a ++ b) = runs a + runs b.
Proof. unfold runs. now rewrite filter_app, length_app. Qed.

Lemma sleeps_app (a b : list event) : sleeps (a ++ b) = sleeps a + sleeps b.
Proof. unfold sleeps. now rewrite filter_app, length_app. Qed.

Lemma warns_app (a b : list event) : warns (a ++ b) = warns a + warns b.
Proof. unfold warns. now rewrite filter_app, length_app. Qed.

Lemma slept_app (a b : list event) : slept (a ++ b) = (slept a + slept b)%N.
Proof.
  induction a as [|e a IH]; simpl; [reflexivity|].
  fold (slept (a ++ b)) (slept a). rewrite IH. lia.
Qed.

(** What [j] failed attempts and a last run add to the trace. *)
Lemma ran_retried (j : nat) (w : World) :
  ran command (retried module command delay j w) =
  mkWorld (run_done w + S j)
    (trace w ++ (failed_attempts module command delay (run_done w) j
                 ++ [EvRun command])).
Proof.
  unfold ran, retried; cbn [run_done trace].
  now rewrite <- app_assoc, Nat.add_succ_r.
Qed.

End RunnerCases.

Section RunnerEffects.

Variable module : AnsibleModule.
Variable command : string.
Variable delay : N.

Lemma failed_attempts_sleeps_only (base k : nat) (seconds : N) :
  In (EvSleep seconds) (failed_attempts module command delay base k) ->
  seconds = delay.
Proof.
  revert base; induction k as [|k IH]; intros base; simpl; [tauto|].
  intros [E|[E|[E|H]]]; try discriminate; [congruence|eauto].
Qed.

(** The effects of [j] failed attempts followed by a last run. *)
Lemma attempts_then_run (base j : nat) :
  let new :=
    (failed_attempts module command delay base j ++ [EvRun command])%list in
  runs new = S j
  /\ sleeps new = j
  /\ warns new = j
  /\ slept new = (delay * N.of_nat j)%N
  /\ (forall other, In (EvRun other) new -> other = command)
  /\ (forall seconds, In (EvSleep seconds) new -> seconds = delay)
  /\ last new (EvRun command) = EvRun command
  /\ hd (EvRun command) new = EvRun command.
Proof.
  intros new. unfold new.
  rewrite runs_app, sleeps_app, warns_app, slept_app.
  rewrite runs_failed_attempts, sleeps_failed_attempts,
    warns_failed_attempts, slept_failed_attempts.
  repeat split.
  - cbn. lia.
  - cbn. lia.
  - cbn. lia.
  - cbn. lia.
  - intros other Hin. apply in_app_or in Hin as [Hin|[Hin|[]]].
    + now apply failed_attempts_runs_only in Hin.
    + congruence.
  - intros seconds Hin. apply in_app_or in Hin as [Hin|[Hin|[]]].
    + now apply failed_attempts_sleeps_only in Hin.
    + discriminate Hin.
  - apply last_last.
  - destruct j; reflexivity.
Qed.

End RunnerEffects.

(** ** More properties of the runner *)



(** X3. The runner returns an output exactly when one of the first
    [retries] answers exits 0, and the output is then the trimmed standard
    output of the first answer that does: answers after it are not asked
    for, and a later success does not replace an earlier one. *)
Theorem runner_succeeds_iff_zero_exit
    (module : AnsibleModule) (command : string) (retries : Z) (delay : N)
    (w : World) :
  let r := fst (runState (run_command_with_retries module command retries delay)
                  w) in
  ((exists out, r = (Some out, None)) <->
   (exists i, (Z.of_nat i < retries)%Z
              /\ rc_of (answer module (run_done w + i) command) = 0%Z))
  /\ (forall out,
        r = (Some out, None) ->
        exists k,
          (Z.of_nat k < retries)%Z
          /\ succeeds_after module command (run_done w) k = true
          /\ out = PyStr.strip (stdout_of (answer module (run_done w + k)
                                             command))).
Proof.
  intros r.
  assert (Inv : forall out, r = (Some out, None) ->
                exists k,
                  (Z.of_nat k < retries)%Z
                  /\ succeeds_after module command (run_done w) k = true
                  /\ out = PyStr.strip
                             (stdout_of (answer module (run_done w + k)
                                           command))).
  { intros out. unfold r.
    destruct (runner_cases module command retries delay w)
      as [[Hr E]|[(k & Hk & Hs & E)|(Hr & _ & E)]]; rewrite E; cbn [fst];
      intros H; try discriminate H.
    exists k. repeat split; trivial. now injection H as <-. }
  split; [split|exact Inv].
  - intros [out E]. destruct (Inv out E) as (k & Hk & Hs & _).
    exists k. split; [exact Hk|].
    apply andb_true_iff in Hs as [_ Hs]. now apply Z.eqb_eq.
  - intros (i & Hi & Hrc).
    destruct (first_zero_exit module command (S i) (run_done w))
      as [H|(k & Hk & H)].
    + exfalso. apply (all_fail_nth module command (S i) (run_done w) i H);
        [lia|exact Hrc].
    + exists (out_at module command (run_done w + k)). unfold r.
      rewrite (runner_succeeds module command retries delay k w);
        [reflexivity|lia|exact H].
Qed.


(** ** Every run of the decision *)

Section DecisionCases.

Variable module : AnsibleModule.

(** The three ways a call of the decision can go: the identity command is
    exhausted, the permission command is exhausted, or both succeed. *)
Lemma decision_cases (w : World) :
  (all_fail module user_command (run_done w) 3 = true
   /\ runState (check_cluster_admin module) w =
      (Returned (None, Some identity_failure), identified module 2 w))
  \/ (exists k1,
        k1 < 3
        /\ succeeds_after module user_command (run_done w) k1 = true
        /\ all_fail module check_admin_command (S (run_done w + k1)) 3 = true
        /\ runState (check_cluster_admin module) w =
           (Returned
              (None,
               Some (permission_failure
                       (Some (retry_failure 3
                                (stderr_of
                                   (answer module (S (run_done w + k1) + 2)
                                      check_admin_command)))))),
            ran check_admin_command
              (retried module check_admin_command 3 2 (identified module k1 w))))
  \/ (exists k1 k2,
        k1 < 3 /\ k2 < 3
        /\ succeeds_after module user_command (run_done w) k1 = true
        /\ succeeds_after module check_admin_command (S (run_done w + k1)) k2
           = true
        /\ runState (check_cluster_admin module) w =
           (Returned
              (Some (out_at module user_command (run_done w + k1)),
               verdict (out_at module user_command (run_done w + k1))
                 (out_at module check_admin_command (S (run_done w + k1) + k2))),
            ran check_admin_command
              (retried module check_admin_command 3 k2 (identified module k1 w)))).
Proof.
  destruct (first_zero_exit module user_command 3 (run_done w))
    as [H1|(k1 & Hk1 & H1)].
  - left. split; [exact H1|]. now apply decision_identity_exhausted.
  - right.
    destruct (first_zero_exit module check_admin_command 3 (S (run_done w + k1)))
      as [H2|(k2 & Hk2 & H2)].
    + left. exists k1. repeat split; trivial.
      now apply decision_permission_exhausted.
    + right. exists k1, k2. repeat split; trivial.
      now apply decision_both_succeed.
Qed.

(** The world after the permission command was run [S j] times, the
    identity command [S k1] times. *)
Lemma both_ran (k1 j : nat) (w : World) :
  ran check_admin_command
    (retried module check_admin_command 3 j (identified module k1 w)) =
  mkWorld (run_done w + (S k1 + S j))
    (trace w
     ++ ((failed_attempts module user_command 3 (run_done w) k1
          ++ [EvRun user_command])
         ++ (failed_attempts module check_admin_command 3
               (run_done w + S k1) j
             ++ [EvRun check_admin_command]))).
Proof.
  unfold identified. rewrite (ran_retried module user_command 3 k1 w).
  rewrite ran_retried. cbn [run_done trace].
  now rewrite <- !app_assoc, Nat.add_assoc.
Qed.

End DecisionCases.

(** ** More properties of the decision *)

(** X5. The decision always returns: its [in] test never meets [None], so
    no [TypeError] is raised.  What it returns is one of four things: the
    user and no error; the user and the not-an-admin error; no user and
    the identity hint; no user and the permission failure with the
    runner's message after it. *)
Theorem check_cluster_admin_outcomes (module : AnsibleModule) (w : World) :
  let r := fst (runState (check_cluster_admin module) w) in
  (exists user, r = Returned (Some user, None))
  \/ (exists user,
        r = Returned (Some user,
                      Some "User does not have `cluster-admin` rights."))
  \/ r = Returned
           (None,
            Some "Failed to execute `oc whoami`. Ensure `oc` client is configured correctly.")
  \/ (exists stderr,
        r = Returned
              (None,
               Some ("Failed to verify cluster-admin rights. Error: Command failed after 3 attempts: "
                     ++ PyStr.strip stderr))).
Proof.
  intros r. unfold r.
  destruct (decision_cases module w)
    as [[_ E]|[(k1 & _ & _ & _ & E)|(k1 & k2 & _ & _ & _ & _ & E)]];
    rewrite E; cbn [fst].
  - right; right; left. reflexivity.
  - right; right; right. eexists. reflexivity.
  - unfold verdict. destruct (_ || _).
    + left. eexists. reflexivity.
    + right; left. eexists. reflexivity.
Qed.

(** X6. One call of the decision only appends to the trace.  It starts by
    running the identity command, runs between two and six commands, each
    of them the identity or the permission command, sleeps at most four
    times and at most twelve seconds in all, and warns as often as it
    sleeps. *)
Theorem check_cluster_admin_effects_bounded
    (module : AnsibleModule) (w : World) :
  let w' := snd (runState (check_cluster_admin module) w) in
  let new := added w w' in
  trace w' = (trace w ++ new)%list
  /\ run_done w' = run_done w + runs new
  /\ 2 <= runs new <= 6
  /\ sleeps new <= 4
  /\ warns new = sleeps new
  /\ (slept new <= 12)%N
  /\ (forall command,
        In (EvRun command) new ->
        command = user_command \/ command = check_admin_command)
  /\ hd (EvSleep 0) new = EvRun user_command.
Proof.
  intros w' new. unfold new, w'.
  destruct (decision_cases module w)
    as [[_ E]|[(k1 & Hk1 & _ & _ & E)|(k1 & k2 & Hk1 & Hk2 & _ & _ & E)]];
    rewrite E; cbn [snd].
  - unfold identified. rewrite ran_retried, added_app. cbn [trace run_done].
    destruct (attempts_then_run module user_command 3 (run_done w) 2)
      as (R & S' & W & T & Hrun & _ & _ & _).
    rewrite R, S', W, T. repeat split; trivial; try lia.
    intros c Hin. left. now apply Hrun.
  - rewrite both_ran, added_app. cbn [trace run_done].
    rewrite runs_app, sleeps_app, warns_app, slept_app.
    destruct (attempts_then_run module user_command 3 (run_done w) k1)
      as (R1 & S1 & W1 & T1 & Hrun1 & _ & _ & _).
    destruct (attempts_then_run module check_admin_command 3
                (run_done w + S k1) 2)
      as (R2 & S2 & W2 & T2 & Hrun2 & _ & _ & _).
    rewrite R1, S1, W1, T1, R2, S2, W2, T2. repeat split; trivial; try lia.
    + intros c Hin. apply in_app_or in Hin as [Hin|Hin]; auto.
    + destruct k1; reflexivity.
  - rewrite both_ran, added_app. cbn [trace run_done].
    rewrite runs_app, sleeps_app, warns_app, slept_app.
    destruct (attempts_then_run module user_command 3 (run_done w) k1)
      as (R1 & S1 & W1 & T1 & Hrun1 & _ & _ & _).
    destruct (attempts_then_run module check_admin_command 3
                (run_done w + S k1) k2)
      as (R2 & S2 & W2 & T2 & Hrun2 & _ & _ & _).
    rewrite R1, S1, W1, T1, R2, S2, W2, T2. repeat split; trivial; try lia.
    + intros c Hin. apply in_app_or in Hin as [Hin|Hin]; auto.
    + destruct k1; reflexivity.
Qed.

(** ** More properties of the module boundary *)

(** X7. The module runs no command of its own and never ends in an
    uncaught exception.  It ends in [exit_json] with [changed=False] and
    the message ["User `<user>` has `cluster-admin` privileges."] exactly
    when the decision returned no error, and otherwise in [fail_json] with
    the decision's error after the template. *)
Theorem run_module_exits (module : AnsibleModule) (w : World) :
  let r := fst (runState (check_cluster_admin module) w) in
  let e := fst (runState (run_module module) w) in
  snd (runState (run_module module) w)
  = snd (runState (check_cluster_admin module) w)
  /\ ((exists user,
         r = Returned (Some user, None)
         /\ e = ExitJson false
                  ("User `" ++ user ++ "` has `cluster-admin` privileges."))
      \/ (exists user detail,
            r = Returned (user, Some detail)
            /\ detail <> ""
            /\ e = FailJson
                     ("Current user `"
                      ++ match user with Some name => name | None => "None" end
                      ++ "` does not have `cluster-admin` rights. "
                      ++ detail))).
Proof.
  intros r e. unfold r, e. rewrite run_module_steps.
  destruct (decision_cases module w)
    as [[_ E]|[(k1 & _ & _ & _ & E)|(k1 & k2 & _ & _ & _ & _ & E)]];
    rewrite E; cbn [fst snd PyStr.truthy].
  - split; [reflexivity|]. right. exists None. eexists.
    repeat split. discriminate.
  - split; [reflexivity|]. right. exists None. eexists.
    repeat split. discriminate.
  - unfold verdict. destruct (_ || _); cbn [fst snd PyStr.truthy].
    + split; [reflexivity|]. left. eexists. split; reflexivity.
    + split; [reflexivity|]. right. eexists. eexists.
      repeat split. discriminate.
Qed.

(** X8. White space around the privileged identity does not defeat the
    match: when the identity command prints ["system:admin"] with any
    white space before and after it and the permission command succeeds,
    whatever it prints, the decision authorizes and the module exits with
    ["User `system:admin` has `cluster-admin` privileges."]. *)
Theorem padded_system_admin_is_authorized
    (module : AnsibleModule) (w : World) (k1 k2 : nat) (l r : string) :
  k1 < 3 -> k2 < 3 ->
  succeeds_after module user_command (run_done w) k1 = true ->
  succeeds_after module check_admin_command (S (run_done w + k1)) k2 = true ->
  PyStr.all_space l = true -> PyStr.all_space r = true ->
  stdout_of (answer module (run_done w + k1) user_command)
  = l ++ "system:admin" ++ r ->
  fst (runState (check_cluster_admin module) w)
  = Returned (Some "system:admin", None)
  /\ fst (runState (run_module module) w)
     = ExitJson false "User `system:admin` has `cluster-admin` privileges.".
Proof.
  intros Hk1 Hk2 H1 H2 Hl Hr Hout.
  rewrite run_module_steps.
  rewrite (decision_both_succeed module k1 k2 w Hk1 Hk2 H1 H2).
  assert (Hu : out_at module user_command (run_done w + k1) = "system:admin").
  { unfold out_at. rewrite Hout.
    exact (strip_padded l "ystem:admin" r "s"%char Hl Hr eq_refl eq_refl). }
  rewrite Hu. unfold verdict. rewrite orb_true_r. split; reflexivity.
Qed.

Lemma padded_system_admin_is_authorized_witness :
  succeeds_after (scenario "  system:admin" "no") user_command 0 0 = true
  /\ succeeds_after (scenario "  system:admin" "no") check_admin_command 1 0
     = true
  /\ PyStr.all_space "  " = true /\ PyStr.all_space nl = true
  /\ stdout_of (answer (scenario "  system:admin" "no") 0 user_command)
     = "  " ++ "system:admin" ++ nl
  /\ fst (runState (run_module (scenario "  system:admin" "no")) fresh)
     = ExitJson false "User `system:admin` has `cluster-admin` privileges.".
Proof.
  do 5 (split; [reflexivity|]).
  exact (proj2 (padded_system_admin_is_authorized
                  (scenario "  system:admin" "no") fresh 0 0 "  " nl
                  ltac:(repeat constructor) ltac:(repeat constructor)
                  eq_refl eq_refl eq_refl eq_refl eq_refl)).
Defined.

(** X9. When the identity command succeeds but the permission command
    fails all three attempts, the decision drops the user it had learnt:
    it returns no user, and the module's message reads
    ["Current user `None` ..."], followed by the permission failure with
    the trimmed standard error of the last attempt. *)
Theorem permission_failure_drops_user
    (module : AnsibleModule) (w : World) (k1 : nat) :
  k1 < 3 ->
  succeeds_after module user_command (run_done w) k1 = true ->
  all_fail module check_admin_command (S (run_done w + k1)) 3 = true ->
  let detail :=
    "Failed to verify cluster-admin rights. Error: Command failed after 3 attempts: "
    ++ err_at module check_admin_command (S (run_done w + k1) + 2) in
  fst (runState (check_cluster_admin module) w) = Returned (None, Some detail)
  /\ fst (runState (run_module module) w)
     = FailJson ("Current user `None` does not have `cluster-admin` rights. "
                 ++ detail).
Proof.
  intros Hk1 H1 H2 detail.
  rewrite run_module_steps.
  rewrite (decision_permission_exhausted module k1 w Hk1 H1 H2).
  split; reflexivity.
Qed.

Lemma permission_failure_drops_user_witness :
  succeeds_after scenario_E user_command 0 1 = true
  /\ all_fail scenario_E check_admin_command 2 3 = true
  /\ out_at scenario_E user_command 1 = "alice"
  /\ fst (runState (run_module scenario_E) fresh)
     = FailJson "Current user `None` does not have `cluster-admin` rights. Failed to verify cluster-admin rights. Error: Command failed after 3 attempts: Forbidden".
Proof.
  do 3 (split; [reflexivity|]).
  exact (proj2 (permission_failure_drops_user scenario_E fresh 1
                  ltac:(repeat constructor) eq_refl eq_refl)).
Defined.

(** X10. The identity is not checked for being empty: when the identity
    command exits 0 having printed nothing but white space and the
    permission output has ["yes"] in it, the decision authorizes the empty
    user and the module exits with
    ["User `` has `cluster-admin` privileges."]. *)
Theorem blank_identity_is_accepted
    (module : AnsibleModule) (w : World) (k1 k2 : nat) :
  k1 < 3 -> k2 < 3 ->
  succeeds_after module user_command (run_done w) k1 = true ->
  succeeds_after module check_admin_command (S (run_done w + k1)) k2 = true ->
  PyStr.all_space (stdout_of (answer module (run_done w + k1) user_command))
  = true ->
  PyStr.contains "yes"
    (out_at module check_admin_command (S (run_done w + k1) + k2)) = true ->
  fst (runState (check_cluster_admin module) w) = Returned (Some "", None)
  /\ fst (runState (run_module module) w)
     = ExitJson false "User `` has `cluster-admin` privileges.".
Proof.
  intros Hk1 Hk2 H1 H2 Hblank Hyes.
  rewrite run_module_steps.
  rewrite (decision_both_succeed module k1 k2 w Hk1 Hk2 H1 H2).
  unfold verdict. rewrite Hyes. cbn [orb].
  unfold out_at. rewrite (strip_all_space _ Hblank).
  split; reflexivity.
Qed.

Lemma blank_identity_is_accepted_witness :
  succeeds_after (scenario " " "yes") user_command 0 0 = true
  /\ succeeds_after (scenario " " "yes") check_admin_command 1 0 = true
  /\ PyStr.all_space (stdout_of (answer (scenario " " "yes") 0 user_command))
     = true
  /\ PyStr.contains "yes" (out_at (scenario " " "yes") check_admin_command 1)
     = true
  /\ fst (runState (run_module (scenario " " "yes")) fresh)
     = ExitJson false "User `` has `cluster-admin` privileges.".
Proof.
  do 4 (split; [reflexivity|]).
  exact (proj2 (blank_identity_is_accepted (scenario " " "yes") fresh 0 0
                  ltac:(repeat constructor) ltac:(repeat constructor)
                  eq_refl eq_refl eq_refl eq_refl)).
Defined.
